(** * Verification of [backend/create_dummy_users_xlsx.py]

    The script builds one workbook with the spreadsheet library, appends a
    header row and four literal user rows to its active sheet, saves it under a
    fixed file name and prints a confirmation.  The embedding below keeps the
    script's shape: Python objects live in a heap and are reached through
    references ([wb], [ws]), statements are sequenced in a state-and-exception
    monad, and the operating system is a parameter that decides whether the
    file write goes through. *)

From Stdlib Require Import ZArith String Ascii List.
From stdpp Require Import base option list strings gmap pretty.

Open Scope Z_scope.
Open Scope string_scope.

(** ** Characters that cannot be written inside a string literal *)

Definition nl : string := String (ascii_of_nat 10) EmptyString.
Definition dq : string := String (ascii_of_nat 34) EmptyString.

(** [q s] is [s] between double quotes, as it stands inside the script's
    single-quoted literals. *)
Definition q (s : string) : string := dq ++ s ++ dq.

(** ** Python values stored in cells *)

(** The three kinds of literal the script puts in a row.  The constructor is
    the run-time type: [1] is an [int], ["1"] a [str], [True] a [bool]. *)
Inductive pyval : Type :=
  | PyInt (n : Z)
  | PyStr (s : string)
  | PyBool (b : bool).

#[global] Instance pyval_eq_dec : EqDecision pyval.
Proof. solve_decision. Defined.

Inductive pytype : Type := Tint | Tstr | Tbool.

(** [type(v)] *)
Definition type_of (v : pyval) : pytype :=
  match v with
  | PyInt _ => Tint
  | PyStr _ => Tstr
  | PyBool _ => Tbool
  end.

(** ** The spreadsheet library's objects *)

Module openpyxl.

(** A worksheet: its title and its rows, top to bottom.  Row numbers are
    1-based, as in the library and in the spreadsheet file. *)
Record Worksheet : Type := mkWorksheet {
  title : string;
  cells : list (list pyval)
}.

(** A workbook: its sheets and the index of the active one.  A saved file is
    taken to hold the workbook it was written from, sheet by sheet and cell
    by cell; the container format and the document properties the library
    adds on its own are below this level. *)
Record Workbook_obj : Type := mkWorkbook {
  worksheets : list Worksheet;
  active_index : nat
}.

#[global] Instance Worksheet_eq_dec : EqDecision Worksheet.
Proof. solve_decision. Defined.

#[global] Instance Workbook_obj_eq_dec : EqDecision Workbook_obj.
Proof. solve_decision. Defined.

(** [Workbook()] starts with a single empty sheet, which is the active one. *)
Definition fresh_workbook : Workbook_obj :=
  {| worksheets := [ {| title := "Sheet"; cells := [] |} ];
     active_index := 0 |}.

(** Row [r] (counted from 1) of a sheet. *)
Definition row (sh : Worksheet) (r : nat) : option (list pyval) :=
  match r with
  | O => None
  | S i => cells sh !! i
  end.

Definition max_row (sh : Worksheet) : nat := length (cells sh).

Definition with_title (t : string) (sh : Worksheet) : Worksheet :=
  {| title := t; cells := cells sh |}.

(** [ws.append(r)] puts [r] below the last row. *)
Definition with_row (r : list pyval) (sh : Worksheet) : Worksheet :=
  {| title := title sh; cells := cells sh ++ [r] |}.

Definition sheetnames (b : Workbook_obj) : list string :=
  title <$> worksheets b.

(** The type tag a cell gets from the value bound to it: ["n"] numeric,
    ["s"] string, ["b"] boolean.  A [bool] is tagged boolean, not numeric. *)
Definition data_type (v : pyval) : string :=
  match v with
  | PyBool _ => "b"
  | PyInt _ => "n"
  | PyStr _ => "s"
  end.

End openpyxl.
Import openpyxl.

(** ** The process: heap, file system, standard output *)

(** Exceptions the script can meet.  [OSError] carries the errno of the failed
    write; the other two cover a dangling reference and a missing sheet, which
    the script never triggers. *)
Inductive exn : Type :=
  | OSError (errno : Z)
  | ReferenceError
  | IndexError.

(** What the process asks of the outside world, in order. *)
Inductive event : Type :=
  | EvSave (path : string) (content : Workbook_obj) (failure : option exn)
  | EvPrint (line : string).

(** What surrounds the process: its command line, its environment variables
    and, for a path, whether writing it fails and how. *)
Record os : Type := mkOs {
  argv : list string;
  environ : gmap string string;
  write_fault : string → option exn
}.

(** A reference to a workbook in the heap, and a reference to one of its
    sheets.  [ws = wb.active] does not copy the sheet: it names the sheet
    inside the workbook, so what is done through [ws] is seen through [wb]. *)
Definition wb_ref : Type := nat.
Record ws_ref : Type := mkWsRef { ws_parent : wb_ref; ws_index : nat }.

Record process : Type := mkProcess {
  heap : list Workbook_obj;
  files : gmap string Workbook_obj;
  stdout : string;
  trace : list event
}.

Definition set_heap (h : list Workbook_obj) (p : process) : process :=
  {| heap := h; files := files p; stdout := stdout p; trace := trace p |}.

(** ** Statements: state plus exceptions *)

(** A statement either returns a value or raises; in both cases the process
    state it leaves behind is kept. *)
Definition M (A : Type) : Type := process → (exn + A) * process.

Definition ret {A} (a : A) : M A := fun p => (inr a, p).

Definition raise {A} (e : exn) : M A := fun p => (inl e, p).

(** Sequencing: a raised exception skips the rest. *)
Definition bind {A B} (k : A → M B) (m : M A) : M B :=
  fun p =>
    match m p with
    | (inl e, p') => (inl e, p')
    | (inr a, p') => k a p'
    end.

#[global] Instance M_ret : MRet M := @ret.
#[global] Instance M_bind : MBind M := @bind.

(** [for x in xs: body(x)] *)
Fixpoint for_each {A} (xs : list A) (body : A → M unit) : M unit :=
  match xs with
  | [] => ret tt
  | x :: xs' => body x ;; for_each xs' body
  end.

(** *** The library calls the script makes *)

(** [Workbook()] *)
Definition Workbook : M wb_ref :=
  fun p => (inr (length (heap p)), set_heap (heap p ++ [fresh_workbook]) p).

(** [wb.active] *)
Definition active (wb : wb_ref) : M ws_ref :=
  fun p =>
    match heap p !! wb with
    | Some b => (inr {| ws_parent := wb; ws_index := active_index b |}, p)
    | None => (inl ReferenceError, p)
    end.

(** Change one sheet of one workbook in place. *)
Definition update_sheet (ws : ws_ref) (f : Worksheet → Worksheet) : M unit :=
  fun p =>
    match heap p !! ws_parent ws with
    | Some b =>
        match worksheets b !! ws_index ws with
        | Some sh =>
            let b' := {| worksheets := <[ws_index ws := f sh]> (worksheets b);
                         active_index := active_index b |} in
            (inr tt, set_heap (<[ws_parent ws := b']> (heap p)) p)
        | None => (inl IndexError, p)
        end
    | None => (inl ReferenceError, p)
    end.

(** [ws.title = t] *)
Definition set_title (ws : ws_ref) (t : string) : M unit :=
  update_sheet ws (with_title t).

(** [ws.append(r)] *)
Definition append (ws : ws_ref) (r : list pyval) : M unit :=
  update_sheet ws (with_row r).

Section WithOs.

Variable o : os.

(** [wb.save(path)]: one write of the whole workbook.  When the system
    refuses the write the exception is raised and the file system is left as
    it was. *)
Definition save (wb : wb_ref) (path : string) : M unit :=
  fun p =>
    match heap p !! wb with
    | None => (inl ReferenceError, p)
    | Some b =>
        match write_fault o path with
        | Some e =>
            (inl e,
             {| heap := heap p; files := files p; stdout := stdout p;
                trace := trace p ++ [EvSave path b (Some e)] |})
        | None =>
            (inr tt,
             {| heap := heap p; files := <[path := b]> (files p);
                stdout := stdout p;
                trace := trace p ++ [EvSave path b None] |})
        end
    end.

(** [print(s)]: the text and a newline go to standard output. *)
Definition print (s : string) : M unit :=
  fun p =>
    (inr tt,
     {| heap := heap p; files := files p;
        stdout := stdout p ++ s ++ nl;
        trace := trace p ++ [EvPrint s] |}).

(** ** The script *)

Definition header : list pyval :=
  [ PyStr "pk"; PyStr "id"; PyStr "name"; PyStr "email"; PyStr "password";
    PyStr "created_at"; PyStr "onboarding_complete"; PyStr "onboarding_data" ].

Definition rows : list (list pyval) :=
  [ [ PyInt 1; PyStr "1"; PyStr "John Doe"; PyStr "john@example.com";
      PyStr "Password123"; PyStr "2023-01-01T10:00:00Z"; PyBool true;
      PyStr ("{" ++ q "step1" ++ ":true," ++ q "step2" ++ ":true}") ];
    [ PyInt 2; PyStr "2"; PyStr "Jane Smith"; PyStr "jane@example.com";
      PyStr "Password456"; PyStr "2023-02-15T12:30:00Z"; PyBool false;
      PyStr ("{" ++ q "step1" ++ ":true," ++ q "step2" ++ ":false}") ];
    [ PyInt 3; PyStr "3"; PyStr "Test User"; PyStr "testuser@example.com";
      PyStr "TestPass789"; PyStr "2023-03-10T09:15:00Z"; PyBool true;
      PyStr ("{" ++ q "step1" ++ ":true," ++ q "step2" ++ ":true}") ];
    [ PyInt 4; PyStr "4"; PyStr "Demo User"; PyStr "demo@example.com";
      PyStr "DemoPass321"; PyStr "2023-04-20T14:45:00Z"; PyBool false;
      PyStr ("{" ++ q "step1" ++ ":false," ++ q "step2" ++ ":false}") ] ].

Definition script : M unit :=
  wb ← Workbook ;
  ws ← active wb ;
  set_title ws "Users" ;;
  append ws header ;;
  for_each rows (fun r => append ws r) ;;
  save wb "dummy_users.xlsx" ;;
  print "dummy_users.xlsx created.".

End WithOs.

(** ** Running the script as a process *)

(** What is left when the process has ended. *)
Record outcome : Type := mkOutcome {
  final_files : gmap string Workbook_obj;
  output : string;
  events : list event;
  uncaught : option exn;
  exit_status : Z
}.

(** A new interpreter: nothing allocated, nothing printed yet. *)
Definition start (fs : gmap string Workbook_obj) : process :=
  {| heap := []; files := fs; stdout := EmptyString; trace := [] |}.

(** The interpreter exits with 0 when the module body runs to its end and with
    1 when an exception reaches the top level; the traceback goes to standard
    error, not to standard output. *)
Definition exit_code {A} (r : exn + A) : Z :=
  match r with
  | inr _ => 0
  | inl _ => 1
  end.

Definition run (o : os) (fs : gmap string Workbook_obj) : outcome :=
  let res := script o (start fs) in
  {| final_files := files res.2;
     output := stdout res.2;
     events := trace res.2;
     uncaught := match res.1 with inl e => Some e | inr _ => None end;
     exit_status := exit_code res.1 |}.

Definition succeeded (out : outcome) : Prop := exit_status out = 0.

#[global] Instance succeeded_dec out : Decision (succeeded out).
Proof. unfold succeeded. apply _. Defined.

(** The first sheet of the file the run left under [path]. *)
Definition sheet_of_file (out : outcome) (path : string) : option Worksheet :=
  b ← final_files out !! path; worksheets b !! 0%nat.

(** ** Reading the output *)

(** [needle in hay] on strings. *)
Fixpoint contains (needle hay : string) : bool :=
  String.prefix needle hay ||
  match hay with
  | EmptyString => false
  | String _ hay' => contains needle hay'
  end.

(** [s.endswith(suffix)] *)
Definition endswith (s suffix : string) : bool :=
  String.eqb
    (String.substring (String.length s - String.length suffix)
       (String.length suffix) s)
    suffix
  && (String.length suffix <=? String.length s)%nat.

(** [s.splitlines()], for text whose only line terminator is the newline. *)
Fixpoint splitlines_go (cur : string) (s : string) : list string :=
  match s with
  | EmptyString =>
      match cur with
      | EmptyString => []
      | _ => [String.rev cur]
      end
  | String c s' =>
      if Ascii.eqb c (ascii_of_nat 10)
      then String.rev cur :: splitlines_go EmptyString s'
      else splitlines_go (String c cur) s'
  end.

Definition splitlines (s : string) : list string :=
  splitlines_go EmptyString s.

(** [str(n)] for an integer. *)
Definition str (n : Z) : string := pretty n.

(** ** JSON text

    The [onboarding_data] cells hold JSON as text.  To say what they encode,
    a reader for JSON values: objects, arrays, strings with the short escapes,
    integers and the three literals.  It accepts a subset of the JSON grammar
    (no [\u] escapes, no fractions or exponents) and nothing outside it. *)

#[local] Set Warnings "-register-all".
Inductive json : Type :=
  | JNull
  | JBool (b : bool)
  | JNumber (n : Z)
  | JString (s : string)
  | JArray (items : list json)
  | JObject (members : list (string * json)).

Module Json.

Definition is_ws (c : ascii) : bool :=
  let n := nat_of_ascii c in
  Nat.eqb n 32 || Nat.eqb n 9 || Nat.eqb n 10 || Nat.eqb n 13.

Fixpoint skip_ws (s : string) : string :=
  match s with
  | String c s' => if is_ws c then skip_ws s' else s
  | EmptyString => s
  end.

(** [s] without the leading [lit], when it starts with it. *)
Fixpoint literal (lit s : string) : option string :=
  match lit, s with
  | EmptyString, _ => Some s
  | String a lit', String b s' =>
      if Ascii.eqb a b then literal lit' s' else None
  | String _ _, EmptyString => None
  end.

Definition unescape (c : ascii) : option ascii :=
  let n := nat_of_ascii c in
  if Nat.eqb n 34 then Some c
  else if Nat.eqb n 92 then Some c
  else if Nat.eqb n 47 then Some c
  else if Nat.eqb n 98 then Some (ascii_of_nat 8)
  else if Nat.eqb n 102 then Some (ascii_of_nat 12)
  else if Nat.eqb n 110 then Some (ascii_of_nat 10)
  else if Nat.eqb n 114 then Some (ascii_of_nat 13)
  else if Nat.eqb n 116 then Some (ascii_of_nat 9)
  else None.

(** The characters of a string up to its closing quote; the opening quote
    has been read. *)
Fixpoint chars (s : string) : option (string * string) :=
  match s with
  | EmptyString => None
  | String c s' =>
      let n := nat_of_ascii c in
      if Nat.eqb n 34 then Some (EmptyString, s')
      else if Nat.eqb n 92 then
        match s' with
        | String e s'' =>
            u ← unescape e;
            '(t, rest) ← chars s'';
            Some (String u t, rest)
        | EmptyString => None
        end
      else if (n <? 32)%nat then None
      else '(t, rest) ← chars s'; Some (String c t, rest)
  end.

Definition digit (c : ascii) : option Z :=
  let n := nat_of_ascii c in
  if ((48 <=? n) && (n <=? 57))%nat then Some (Z.of_nat n - 48) else None.

Fixpoint digits (acc : Z) (s : string) : Z * string :=
  match s with
  | String c s' =>
      match digit c with
      | Some d => digits (10 * acc + d) s'
      | None => (acc, s)
      end
  | EmptyString => (acc, s)
  end.

(** An integer without sign: a lone [0], or digits that do not start with
    [0]. *)
Definition natural (s : string) : option (Z * string) :=
  match s with
  | String c s' =>
      d ← digit c;
      if (d =? 0)%Z then
        match s' with
        | String c' _ => if digit c' is Some _ then None else Some (0, s')
        | EmptyString => Some (0, s')
        end
      else Some (digits d s')
  | EmptyString => None
  end.

Fixpoint value (fuel : nat) (s : string) : option (json * string) :=
  match fuel with
  | O => None
  | S fuel' =>
      match skip_ws s with
      | EmptyString => None
      | String c s' =>
          let n := nat_of_ascii c in
          if Nat.eqb n 123 then                       (* { *)
            match skip_ws s' with
            | String c' s'' =>
                if Nat.eqb (nat_of_ascii c') 125      (* } *)
                then Some (JObject [], s'')
                else '(ms, rest) ← members fuel' s'; Some (JObject ms, rest)
            | EmptyString => None
            end
          else if Nat.eqb n 91 then                   (* [ *)
            match skip_ws s' with
            | String c' s'' =>
                if Nat.eqb (nat_of_ascii c') 93       (* ] *)
                then Some (JArray [], s'')
                else '(vs, rest) ← elements fuel' s'; Some (JArray vs, rest)
            | EmptyString => None
            end
          else if Nat.eqb n 34 then
            '(t, rest) ← chars s'; Some (JString t, rest)
          else if Nat.eqb n 45 then                   (* - *)
            '(k, rest) ← natural s'; Some (JNumber (- k), rest)
          else if digit c is Some _ then
            '(k, rest) ← natural (String c s'); Some (JNumber k, rest)
          else
            match literal "true" (String c s') with
            | Some rest => Some (JBool true, rest)
            | None =>
                match literal "false" (String c s') with
                | Some rest => Some (JBool false, rest)
                | None =>
                    rest ← literal "null" (String c s'); Some (JNull, rest)
                end
            end
      end
  end

(** One or more [name : value] pairs separated by commas, then [}]. *)
with members (fuel : nat) (s : string) : option (list (string * json) * string) :=
  match fuel with
  | O => None
  | S fuel' =>
      match skip_ws s with
      | String c s1 =>
          if Nat.eqb (nat_of_ascii c) 34 then
            '(k, s2) ← chars s1;
            match skip_ws s2 with
            | String c2 s3 =>
                if Nat.eqb (nat_of_ascii c2) 58 then  (* : *)
                  '(v, s4) ← value fuel' s3;
                  match skip_ws s4 with
                  | String c4 s5 =>
                      if Nat.eqb (nat_of_ascii c4) 125 then Some ([(k, v)], s5)
                      else if Nat.eqb (nat_of_ascii c4) 44 then
                        '(ms, rest) ← members fuel' s5;
                        Some ((k, v) :: ms, rest)
                      else None
                  | EmptyString => None
                  end
                else None
            | EmptyString => None
            end
          else None
      | EmptyString => None
      end
  end

(** One or more values separated by commas, then the closing bracket. *)
with elements (fuel : nat) (s : string) : option (list json * string) :=
  match fuel with
  | O => None
  | S fuel' =>
      '(v, s1) ← value fuel' s;
      match skip_ws s1 with
      | String c s2 =>
          if Nat.eqb (nat_of_ascii c) 93 then Some ([v], s2)
          else if Nat.eqb (nat_of_ascii c) 44 then
            '(vs, rest) ← elements fuel' s2; Some (v :: vs, rest)
          else None
      | EmptyString => None
      end
  end.

(** [json.loads(s)]: one value and nothing after it but white space.  Every
    step of the reader consumes a character or ends, so the length of the
    text is fuel enough. *)
Definition loads (s : string) : option json :=
  '(v, rest) ← value (S (String.length s)) s;
  match skip_ws rest with
  | EmptyString => Some v
  | String _ _ => None
  end.

(** [obj[key]] on a decoded object: the last pair with that name wins. *)
Definition get (key : string) (v : json) : option json :=
  match v with
  | JObject ms => snd <$> List.find (fun m => String.eqb (fst m) key) (rev ms)
  | _ => None
  end.

Definition keys (v : json) : option (list string) :=
  match v with
  | JObject ms => Some (fst <$> ms)
  | _ => None
  end.

Definition as_bool (v : json) : option bool :=
  match v with
  | JBool b => Some b
  | _ => None
  end.

End Json.

(** ** Vocabulary of the claims *)

(** The cell of a row under a column name of the header. *)
Fixpoint position (name : string) (names : list pyval) : option nat :=
  match names with
  | [] => None
  | v :: names' =>
      if decide (v = PyStr name) then Some O else S <$> position name names'
  end.

Definition field (r : list pyval) (name : string) : option pyval :=
  i ← position name header; r !! i.

(** Data row [i], counted from 1: the header takes the sheet's row 1. *)
Definition data_row (sh : Worksheet) (i : nat) : option (list pyval) :=
  row sh (S i).

(** What a record's [onboarding_data] decodes to: the two step flags. *)
Definition onboarding_steps (r : list pyval) : option (bool * bool) :=
  v ← field r "onboarding_data";
  match v with
  | PyStr text =>
      obj ← Json.loads text;
      s1 ← Json.get "step1" obj ≫= Json.as_bool;
      s2 ← Json.get "step2" obj ≫= Json.as_bool;
      Some (s1, s2)
  | _ => None
  end.

(** The sheet a reference names. *)
Definition deref (p : process) (ws : ws_ref) : option Worksheet :=
  b ← heap p !! ws_parent ws; worksheets b !! ws_index ws.

(** Same files, same output, same events. *)
Definition same_world (p p' : process) : Prop :=
  files p' = files p ∧ stdout p' = stdout p ∧ trace p' = trace p.

(** The workbook the script has built when it reaches [wb.save]. *)
Definition users_sheet : Worksheet :=
  {| title := "Users"; cells := header :: rows |}.

Definition users_workbook : Workbook_obj :=
  {| worksheets := [users_sheet]; active_index := 0 |}.

(** A system on which every write goes through, and one on which the write
    of any path is refused with errno 13 (permission denied). *)
Definition os_ok : os :=
  {| argv := []; environ := ∅; write_fault := fun _ => None |}.

Definition os_denied : os :=
  {| argv := []; environ := ∅; write_fault := fun _ => Some (OSError 13) |}.

(** A system that passes arguments and environment variables, and refuses
    every write except that of [dummy_users.xlsx]. *)
Definition os_with_args : os :=
  {| argv := ["--rows"; "10"];
     environ := {[ "OUTPUT" := "other.xlsx" ]};
     write_fault := fun path =>
       if String.eqb path "dummy_users.xlsx" then None else Some (OSError 13) |}.

(** ** Timestamps

    The [created_at] cells hold text of the form [YYYY-MM-DDTHH:MM:SSZ].  A
    reader for that form, with the calendar's ranges checked, tells which
    instant a cell names. *)

Module Iso8601.

Record instant : Type := mkInstant {
  year : Z; month : Z; day : Z; hour : Z; minute : Z; second : Z
}.

(** Exactly [n] decimal digits. *)
Fixpoint number (n : nat) (acc : Z) (s : string) : option (Z * string) :=
  match n with
  | O => Some (acc, s)
  | S n' =>
      match s with
      | String c s' => d ← Json.digit c; number n' (10 * acc + d) s'
      | EmptyString => None
      end
  end.

Definition is_leap (y : Z) : bool :=
  ((y mod 4 =? 0) && negb (y mod 100 =? 0) || (y mod 400 =? 0))%Z.

Definition days_in_month (y m : Z) : Z :=
  if (m =? 2)%Z then (if is_leap y then 29 else 28)
  else if ((m =? 4) || (m =? 6) || (m =? 9) || (m =? 11))%Z then 30
  else 31.

Definition valid (t : instant) : bool :=
  ((1 <=? month t) && (month t <=? 12)
   && (1 <=? day t) && (day t <=? days_in_month (year t) (month t))
   && (hour t <=? 23) && (minute t <=? 59) && (second t <=? 59))%Z.

Definition parse (s : string) : option instant :=
  '(y, s) ← number 4 0 s;
  s ← Json.literal "-" s;
  '(mo, s) ← number 2 0 s;
  s ← Json.literal "-" s;
  '(d, s) ← number 2 0 s;
  s ← Json.literal "T" s;
  '(h, s) ← number 2 0 s;
  s ← Json.literal ":" s;
  '(mi, s) ← number 2 0 s;
  s ← Json.literal ":" s;
  '(se, s) ← number 2 0 s;
  s ← Json.literal "Z" s;
  match s with
  | EmptyString =>
      let t := mkInstant y mo d h mi se in
      if valid t then Some t else None
  | String _ _ => None
  end.

(** Lexicographic order on the fields, most significant first. *)
Fixpoint lex_lt (a b : list Z) : bool :=
  match a, b with
  | x :: a', y :: b' => ((x <? y) || ((x =? y) && lex_lt a' b'))%Z
  | _, _ => false
  end.

Definition before (t u : instant) : bool :=
  lex_lt [year t; month t; day t; hour t; minute t; second t]
         [year u; month u; day u; hour u; minute u; second u].

End Iso8601.

(** The instant the [created_at] cell of data row [i] names. *)
Definition created_at (sh : Worksheet) (i : nat) : option Iso8601.instant :=
  r ← data_row sh i;
  v ← field r "created_at";
  match v with
  | PyStr text => Iso8601.parse text
  | _ => None
  end.

(** ** The import statements

    The module body starts with three imports, which run before anything
    else.  An import of a module that the interpreter cannot find raises at
    that line; nothing below it runs.  A [from m import x] is taken to fail
    only when [m] cannot be found. *)




(** Which modules the interpreter can find. *)
Record site : Type := mkSite {
  importable : string → bool
}.




(** An installation with every module, and one without the spreadsheet
    library. *)
Definition site_full : site := {| importable := fun _ => true |}.


(** * Properties *)

(** ** The library calls *)

Section Sheets.

Implicit Types (p : process) (ws : ws_ref) (sh : Worksheet).

Lemma same_world_refl p : same_world p p.
Proof. by repeat split. Qed.

Lemma same_world_trans p1 p2 p3 :
  same_world p1 p2 → same_world p2 p3 → same_world p1 p3.
Proof.
  intros (Hf & Hs & Ht) (Hf' & Hs' & Ht').
  repeat split; congruence.
Qed.

(** A change made through a sheet reference succeeds when the reference is
    valid, is visible through it afterwards, and touches nothing outside
    the heap. *)
Lemma update_sheet_spec ws f p sh :
  deref p ws = Some sh →
  ∃ p', update_sheet ws f p = (inr tt, p')
        ∧ deref p' ws = Some (f sh)
        ∧ same_world p p'.
Proof.
  unfold deref, update_sheet. intros H.
  destruct (heap p !! ws_parent ws) as [b|] eqn:Hb; simpl in H; [|done].
  rewrite H. eexists. split; [reflexivity|]. split.
  - simpl. rewrite list_lookup_insert_eq by by eapply lookup_lt_Some.
    simpl. apply list_lookup_insert_eq. by eapply lookup_lt_Some.
  - by repeat split.
Qed.

Lemma append_spec ws r p sh :
  deref p ws = Some sh →
  ∃ p', append ws r p = (inr tt, p')
        ∧ deref p' ws = Some (with_row r sh)
        ∧ same_world p p'.
Proof. apply update_sheet_spec. Qed.

(** The loop appends the rows of the list below what the sheet has, in the
    order of the list. *)
Lemma for_each_append_spec ws rs : ∀ p sh,
  deref p ws = Some sh →
  ∃ p', for_each rs (fun r => append ws r) p = (inr tt, p')
        ∧ deref p' ws = Some {| title := title sh; cells := cells sh ++ rs |}
        ∧ same_world p p'.
Proof.
  induction rs as [|r rs IH]; intros p sh Hsh.
  - exists p. split; [done|]. split; [|apply same_world_refl].
    rewrite app_nil_r. by destruct sh.
  - destruct (append_spec ws r p sh Hsh) as (p1 & Hrun & Hsh1 & Hw1).
    destruct (IH p1 _ Hsh1) as (p2 & Hrun2 & Hsh2 & Hw2).
    exists p2. split; [|split].
    + simpl. unfold mbind, M_bind, bind. by rewrite Hrun.
    + rewrite Hsh2. simpl. by rewrite <- app_assoc.
    + by eapply same_world_trans.
Qed.

(** Appending never moves or changes a row that is already there. *)
Lemma row_with_row_old sh r i x :
  row sh i = Some x → row (with_row r sh) i = Some x.
Proof.
  destruct i as [|i]; [done|]. simpl. intros H.
  by apply lookup_app_l_Some.
Qed.

(** The appended row lands right below the last one. *)
Lemma row_with_row_new sh r :
  row (with_row r sh) (S (max_row sh)) = Some r.
Proof. simpl. unfold max_row. apply list_lookup_middle. done. Qed.

End Sheets.

(** ** The run as a whole *)

Section Run.

Variables (o : os) (fs : gmap string Workbook_obj).

(** The script has one branch point, the write.  Everything before it is
    fixed. *)
Lemma run_eq :
  run o fs =
    match write_fault o "dummy_users.xlsx" with
    | None =>
        {| final_files := <["dummy_users.xlsx" := users_workbook]> fs;
           output := "dummy_users.xlsx created." ++ nl;
           events := [ EvSave "dummy_users.xlsx" users_workbook None;
                       EvPrint "dummy_users.xlsx created." ];
           uncaught := None;
           exit_status := 0 |}
    | Some e =>
        {| final_files := fs;
           output := EmptyString;
           events := [ EvSave "dummy_users.xlsx" users_workbook (Some e) ];
           uncaught := Some e;
           exit_status := 1 |}
    end.
Proof.
  unfold run, script, mbind, M_bind, bind, Workbook, active, set_title,
    append, update_sheet, save, print, start.
  simpl.
  destruct (write_fault o "dummy_users.xlsx"); reflexivity.
Qed.

Lemma succeeded_write : succeeded (run o fs) ↔ write_fault o "dummy_users.xlsx" = None.
Proof.
  unfold succeeded. rewrite run_eq.
  destruct (write_fault o "dummy_users.xlsx"); simpl; split; done.
Qed.

Lemma run_ok :
  succeeded (run o fs) →
  run o fs =
    {| final_files := <["dummy_users.xlsx" := users_workbook]> fs;
       output := "dummy_users.xlsx created." ++ nl;
       events := [ EvSave "dummy_users.xlsx" users_workbook None;
                   EvPrint "dummy_users.xlsx created." ];
       uncaught := None;
       exit_status := 0 |}.
Proof.
  intros H. apply succeeded_write in H. by rewrite run_eq, H.
Qed.

Lemma sheet_of_file_ok :
  succeeded (run o fs) →
  sheet_of_file (run o fs) "dummy_users.xlsx" = Some users_sheet.
Proof.
  intros H. rewrite (run_ok H). unfold sheet_of_file. simpl.
  by rewrite lookup_insert_eq.
Qed.

(** Whatever the system answers, every save the run asks for is the save of
    the same workbook under the same name. *)
Lemma one_save :
  ∃ failure, ∀ path b f,
    EvSave path b f ∈ events (run o fs) →
    path = "dummy_users.xlsx" ∧ b = users_workbook ∧ f = failure.
Proof.
  rewrite run_eq.
  destruct (write_fault o "dummy_users.xlsx") as [e|]; eexists;
    simpl; intros path b f Hin.
  - apply list_elem_of_singleton in Hin. by injection Hin as -> -> ->.
  - apply elem_of_cons in Hin as [Hin|Hin].
    + by injection Hin as -> -> ->.
    + apply list_elem_of_singleton in Hin. discriminate Hin.
Qed.

End Run.

(** On a system that lets the write through, the run succeeds. *)
Lemma run_os_ok : succeeded (run os_ok ∅).
Proof. by apply succeeded_write. Qed.

(** The double quotes of the script's JSON literals are the character 34. *)
Lemma q_chars s :
  q s = String (ascii_of_nat 34) (s ++ String (ascii_of_nat 34) EmptyString).
Proof. reflexivity. Qed.

(** The header call followed by the loop, from any sheet: the header comes
    right below what was there, and the data rows below the header. *)
Lemma header_then_rows ws p sh :
  deref p ws = Some sh →
  ∃ p', (append ws header ;; for_each rows (fun r => append ws r)) p = (inr tt, p')
        ∧ deref p' ws
          = Some {| title := title sh; cells := cells sh ++ header :: rows |}
        ∧ same_world p p'.
Proof.
  intros Hsh.
  destruct (append_spec ws header p sh Hsh) as (p1 & Hrun1 & Hsh1 & Hw1).
  destruct (for_each_append_spec ws rows p1 _ Hsh1) as (p2 & Hrun2 & Hsh2 & Hw2).
  exists p2. split; [|split].
  - unfold mbind, M_bind, bind. by rewrite Hrun1.
  - rewrite Hsh2. simpl. by rewrite <- app_assoc.
  - by eapply same_world_trans.
Qed.

(** ** The sheet that is written *)

(** C1: after a successful run, rows 2 to 5 of the sheet in the saved file are
    the four literal user records, in order and cell by cell; in each of them
    [pk] is an [int] (a numeric cell), [id] a [str] (a string cell) and
    [onboarding_complete] a [bool] (a boolean cell, not a string). *)
Theorem data_rows_literal (o : os) (fs : gmap string Workbook_obj) :
  succeeded (run o fs) →
  ∃ sh, sheet_of_file (run o fs) "dummy_users.xlsx" = Some sh
    ∧ row sh 2 =
        Some [ PyInt 1; PyStr "1"; PyStr "John Doe"; PyStr "john@example.com";
               PyStr "Password123"; PyStr "2023-01-01T10:00:00Z"; PyBool true;
               PyStr ("{" ++ q "step1" ++ ":true," ++ q "step2" ++ ":true}") ]
    ∧ row sh 3 =
        Some [ PyInt 2; PyStr "2"; PyStr "Jane Smith"; PyStr "jane@example.com";
               PyStr "Password456"; PyStr "2023-02-15T12:30:00Z"; PyBool false;
               PyStr ("{" ++ q "step1" ++ ":true," ++ q "step2" ++ ":false}") ]
    ∧ row sh 4 =
        Some [ PyInt 3; PyStr "3"; PyStr "Test User";
               PyStr "testuser@example.com";
               PyStr "TestPass789"; PyStr "2023-03-10T09:15:00Z"; PyBool true;
               PyStr ("{" ++ q "step1" ++ ":true," ++ q "step2" ++ ":true}") ]
    ∧ row sh 5 =
        Some [ PyInt 4; PyStr "4"; PyStr "Demo User"; PyStr "demo@example.com";
               PyStr "DemoPass321"; PyStr "2023-04-20T14:45:00Z"; PyBool false;
               PyStr ("{" ++ q "step1" ++ ":false," ++ q "step2" ++ ":false}") ]
    ∧ ∀ (i : nat) r, (2 ≤ i ≤ 5)%nat → row sh i = Some r →
        type_of <$> field r "pk" = Some Tint
        ∧ data_type <$> field r "pk" = Some "n"
        ∧ type_of <$> field r "id" = Some Tstr
        ∧ data_type <$> field r "id" = Some "s"
        ∧ type_of <$> field r "onboarding_complete" = Some Tbool
        ∧ data_type <$> field r "onboarding_complete" = Some "b".
Proof.
  intros Hok. exists users_sheet.
  split; [by apply sheet_of_file_ok|].
  do 4 (split; [reflexivity|]).
  intros i r Hi.
  destruct i as [|[|[|[|[|[|i]]]]]]; try lia;
    intros [= <-]; repeat split.
Qed.

Lemma data_rows_literal_witness :
  ∃ sh, sheet_of_file (run os_ok ∅) "dummy_users.xlsx" = Some sh
    ∧ row sh 2 =
        Some [ PyInt 1; PyStr "1"; PyStr "John Doe"; PyStr "john@example.com";
               PyStr "Password123"; PyStr "2023-01-01T10:00:00Z"; PyBool true;
               PyStr ("{" ++ q "step1" ++ ":true," ++ q "step2" ++ ":true}") ].
Proof.
  destruct (data_rows_literal os_ok ∅) as (sh & Hsh & H2 & _).
  - reflexivity.
  - exists sh. by split.
Defined.

(** C2: after a successful run, row 1 of the sheet is the header of eight
    column names, in order, and it was appended before any data row: the
    sheet is the header followed by the data rows, so every data row sits
    below it.  The last part states the order of the calls themselves: run
    from any sheet, the header call and the loop put the header in the first
    free row and data row [k] exactly [k] rows further down. *)
Theorem header_row_first (o : os) (fs : gmap string Workbook_obj) :
  succeeded (run o fs) →
  ∃ sh, sheet_of_file (run o fs) "dummy_users.xlsx" = Some sh
    ∧ row sh 1 =
        Some [ PyStr "pk"; PyStr "id"; PyStr "name"; PyStr "email";
               PyStr "password"; PyStr "created_at";
               PyStr "onboarding_complete"; PyStr "onboarding_data" ]
    ∧ cells sh = header :: rows
    ∧ (∀ (i : nat) r, r ∈ rows → row sh i = Some r → (1 < i)%nat)
    ∧ (∀ ws p sh0, deref p ws = Some sh0 →
         ∃ p' sh',
           (append ws header ;; for_each rows (fun r => append ws r)) p
           = (inr tt, p')
           ∧ deref p' ws = Some sh'
           ∧ row sh' (S (max_row sh0)) = Some header
           ∧ ∀ (k : nat) r, rows !! k = Some r →
               row sh' (S (max_row sh0) + S k) = Some r).
Proof.
  intros Hok. exists users_sheet.
  split; [by apply sheet_of_file_ok|].
  split; [reflexivity|]. split; [reflexivity|]. split.
  - intros i r Hr Hi.
    destruct i as [|[|i]]; [done| |lia].
    injection Hi as <-.
    apply list_elem_of_In in Hr. simpl in Hr.
    repeat destruct Hr as [Hr|Hr]; try discriminate Hr. done.
  - intros ws p sh0 Hsh0.
    destruct (header_then_rows ws p sh0 Hsh0) as (p' & Hrun & Hsh' & _).
    exists p'. eexists. split; [exact Hrun|]. split; [exact Hsh'|].
    unfold max_row. split.
    + cbn [row cells]. by apply list_lookup_middle.
    + intros k r Hk. cbn [row cells Nat.add].
      rewrite lookup_app_r by lia.
      replace (length (cells sh0) + S k - length (cells sh0))%nat
        with (S k) by lia.
      exact Hk.
Qed.

Lemma header_row_first_witness :
  ∃ sh, sheet_of_file (run os_ok ∅) "dummy_users.xlsx" = Some sh
    ∧ row sh 1 =
        Some [ PyStr "pk"; PyStr "id"; PyStr "name"; PyStr "email";
               PyStr "password"; PyStr "created_at";
               PyStr "onboarding_complete"; PyStr "onboarding_data" ].
Proof.
  destruct (header_row_first os_ok ∅) as (sh & Hsh & H1 & _).
  - reflexivity.
  - exists sh. by split.
Defined.

(** C3: every run, whatever its command line, environment and file system,
    asks for one save, of a workbook with exactly one sheet titled "Users",
    under the fixed relative name [dummy_users.xlsx]; and when the write goes
    through, that workbook is what the file holds. *)
Theorem one_sheet_named_Users (o : os) (fs : gmap string Workbook_obj) :
  ∃ b sh failure,
    events (run o fs) !! 0%nat = Some (EvSave "dummy_users.xlsx" b failure)
    ∧ worksheets b = [sh]
    ∧ title sh = "Users"
    ∧ sheetnames b = ["Users"]
    ∧ (∀ path b' failure', EvSave path b' failure' ∈ events (run o fs) →
         path = "dummy_users.xlsx" ∧ b' = b)
    ∧ (succeeded (run o fs) →
         final_files (run o fs) !! "dummy_users.xlsx" = Some b).
Proof.
  rewrite run_eq.
  destruct (write_fault o "dummy_users.xlsx") as [e|];
    exists users_workbook, users_sheet; eexists;
    (split; [reflexivity|]); (do 3 (split; [reflexivity|])); simpl; split.
  - intros path b' f' Hin. apply list_elem_of_singleton in Hin.
    by injection Hin as -> -> _.
  - intros H. discriminate H.
  - intros path b' f' Hin.
    apply elem_of_cons in Hin as [Hin|Hin].
    + by injection Hin as -> -> _.
    + apply list_elem_of_singleton in Hin. discriminate Hin.
  - intros _. apply lookup_insert_eq.
Qed.

Lemma one_sheet_named_Users_witness :
  ∃ b sh,
    final_files (run os_ok ∅) !! "dummy_users.xlsx" = Some b
    ∧ worksheets b = [sh] ∧ title sh = "Users".
Proof.
  destruct (one_sheet_named_Users os_ok ∅)
    as (b & sh & failure & _ & Hsheets & Htitle & _ & _ & Hfile).
  exists b, sh. split; [|by split].
  apply Hfile. reflexivity.
Defined.

(** C4, as the spec states it, fails: row 3 of the sheet is the second
    record (Jane Smith), not the first. *)
Lemma row_3_is_second_record :
  succeeded (run os_ok ∅)
  ∧ ∃ sh, sheet_of_file (run os_ok ∅) "dummy_users.xlsx" = Some sh
      ∧ row sh 3 =
          Some [ PyInt 2; PyStr "2"; PyStr "Jane Smith";
                 PyStr "jane@example.com"; PyStr "Password456";
                 PyStr "2023-02-15T12:30:00Z"; PyBool false;
                 PyStr ("{" ++ q "step1" ++ ":true," ++ q "step2" ++ ":false}") ]
      ∧ row sh 3 ≠
          Some [ PyInt 1; PyStr "1"; PyStr "John Doe";
                 PyStr "john@example.com"; PyStr "Password123";
                 PyStr "2023-01-01T10:00:00Z"; PyBool true;
                 PyStr ("{" ++ q "step1" ++ ":true," ++ q "step2" ++ ":true}") ].
Proof.
  split; [apply run_os_ok|].
  exists users_sheet. split; [apply sheet_of_file_ok, run_os_ok|].
  split; [reflexivity|]. discriminate.
Qed.

(** C4, amended: after a successful run the first data row is row 2 of the
    sheet, right below the header in row 1, and it reads exactly
    1, "1", "John Doe", "john@example.com", "Password123",
    "2023-01-01T10:00:00Z", True, '{"step1":true,"step2":true}'. *)
Theorem first_data_row_is_row_2 (o : os) (fs : gmap string Workbook_obj) :
  succeeded (run o fs) →
  ∃ sh, sheet_of_file (run o fs) "dummy_users.xlsx" = Some sh
    ∧ row sh 1 = Some header
    ∧ data_row sh 1 = row sh 2
    ∧ row sh 2 =
        Some [ PyInt 1; PyStr "1"; PyStr "John Doe"; PyStr "john@example.com";
               PyStr "Password123"; PyStr "2023-01-01T10:00:00Z"; PyBool true;
               PyStr ("{" ++ q "step1" ++ ":true," ++ q "step2" ++ ":true}") ].
Proof.
  intros Hok. exists users_sheet.
  split; [by apply sheet_of_file_ok|]. by repeat split.
Qed.

Lemma first_data_row_is_row_2_witness :
  ∃ sh, sheet_of_file (run os_ok ∅) "dummy_users.xlsx" = Some sh
    ∧ row sh 2 =
        Some [ PyInt 1; PyStr "1"; PyStr "John Doe"; PyStr "john@example.com";
               PyStr "Password123"; PyStr "2023-01-01T10:00:00Z"; PyBool true;
               PyStr ("{" ++ q "step1" ++ ":true," ++ q "step2" ++ ":true}") ].
Proof.
  destruct (first_data_row_is_row_2 os_ok ∅) as (sh & Hsh & _ & _ & H2).
  - reflexivity.
  - exists sh. by split.
Defined.

(** ** Output, failure and exit status *)

(** C5: a successful run writes exactly one line to standard output, the line
    contains "dummy_users.xlsx created.", and in any run a line is printed
    only after a save that went through: nothing is printed when the write
    fails. *)
Theorem confirmation_after_save (o : os) (fs : gmap string Workbook_obj) :
  (succeeded (run o fs) →
     ∃ line, splitlines (output (run o fs)) = [line]
       ∧ output (run o fs) = line ++ nl
       ∧ contains "dummy_users.xlsx created." line = true)
  ∧ (∀ (i : nat) line, events (run o fs) !! i = Some (EvPrint line) →
       ∃ (j : nat) b, (j < i)%nat
         ∧ events (run o fs) !! j = Some (EvSave "dummy_users.xlsx" b None)
         ∧ final_files (run o fs) !! "dummy_users.xlsx" = Some b)
  ∧ (output (run o fs) ≠ EmptyString → succeeded (run o fs)).
Proof.
  split; [|split].
  - intros Hok. rewrite (run_ok o fs Hok). simpl.
    exists "dummy_users.xlsx created.". by repeat split.
  - rewrite run_eq.
    destruct (write_fault o "dummy_users.xlsx") as [e|]; simpl; intros i line Hi.
    + destruct i as [|i]; [discriminate Hi|]. by destruct i.
    + destruct i as [|[|i]]; [discriminate Hi| |by destruct i].
      exists 0%nat, users_workbook. split; [lia|]. split; [done|].
      apply lookup_insert_eq.
  - rewrite run_eq.
    destruct (write_fault o "dummy_users.xlsx") as [e|]; simpl; [done|].
    intros _. reflexivity.
Qed.

Lemma confirmation_after_save_witness :
  ∃ line, splitlines (output (run os_ok ∅)) = [line]
    ∧ output (run os_ok ∅) = line ++ nl
    ∧ contains "dummy_users.xlsx created." line = true.
Proof.
  apply (proj1 (confirmation_after_save os_ok ∅)). reflexivity.
Defined.

(** C7: when the write of the file fails, the exception reaches the top level
    uncaught and the process ends with a nonzero status; the write was tried
    once and not again, and nothing was printed.  When the write goes through
    the status is zero. *)
Theorem write_failure_is_fatal (o : os) (fs : gmap string Workbook_obj) :
  (∀ e, write_fault o "dummy_users.xlsx" = Some e →
     uncaught (run o fs) = Some e
     ∧ exit_status (run o fs) ≠ 0
     ∧ (∃ b, events (run o fs) = [EvSave "dummy_users.xlsx" b (Some e)])
     ∧ (∀ line, EvPrint line ∉ events (run o fs))
     ∧ output (run o fs) = EmptyString)
  ∧ (write_fault o "dummy_users.xlsx" = None →
     uncaught (run o fs) = None ∧ exit_status (run o fs) = 0).
Proof.
  rewrite run_eq. split.
  - intros e ->. simpl. do 2 (split; [done|]).
    split; [by eexists|]. split; [|done].
    intros line Hin. apply list_elem_of_singleton in Hin. discriminate Hin.
  - intros ->. by split.
Qed.

Lemma write_failure_is_fatal_witness :
  (uncaught (run os_denied ∅) = Some (OSError 13)
   ∧ exit_status (run os_denied ∅) ≠ 0
   ∧ output (run os_denied ∅) = EmptyString)
  ∧ exit_status (run os_ok ∅) = 0.
Proof.
  split.
  - destruct (proj1 (write_failure_is_fatal os_denied ∅) (OSError 13))
      as (Hexn & Hstatus & _ & _ & Hout); [reflexivity|].
    by repeat split.
  - apply (proj2 (write_failure_is_fatal os_ok ∅)). reflexivity.
Defined.

(** ** Determinism *)

(** C6: the workbook does not depend on anything the run is given.  Any two
    runs, with any command lines, environments and file systems, ask to save
    the same workbook under the same name; when both succeed the two files
    have the same content, hence the same sheet name, header row and data
    rows; and a second run over the directory the first one left overwrites
    the file with what it already held. *)
Theorem deterministic (o1 o2 : os) (fs1 fs2 : gmap string Workbook_obj) :
  (∀ path1 b1 f1 path2 b2 f2,
     EvSave path1 b1 f1 ∈ events (run o1 fs1) →
     EvSave path2 b2 f2 ∈ events (run o2 fs2) →
     path1 = path2 ∧ b1 = b2)
  ∧ (succeeded (run o1 fs1) → succeeded (run o2 fs2) →
     (∃ b, final_files (run o1 fs1) !! "dummy_users.xlsx" = Some b
           ∧ final_files (run o2 fs2) !! "dummy_users.xlsx" = Some b)
     ∧ (∃ sh, sheet_of_file (run o1 fs1) "dummy_users.xlsx" = Some sh
              ∧ sheet_of_file (run o2 fs2) "dummy_users.xlsx" = Some sh)
     ∧ (fs2 = final_files (run o1 fs1) →
        final_files (run o2 fs2) = final_files (run o1 fs1))).
Proof.
  split.
  - destruct (one_save o1 fs1) as (f1' & H1), (one_save o2 fs2) as (f2' & H2).
    intros path1 b1 f1 path2 b2 f2 Hin1 Hin2.
    apply H1 in Hin1 as (-> & -> & _). apply H2 in Hin2 as (-> & -> & _). done.
  - intros Hok1 Hok2. split; [|split].
    + exists users_workbook. rewrite (run_ok o1 fs1 Hok1), (run_ok o2 fs2 Hok2).
      simpl. by rewrite !lookup_insert_eq.
    + exists users_sheet. by rewrite !sheet_of_file_ok.
    + intros ->. rewrite (run_ok o2 _ Hok2), (run_ok o1 fs1 Hok1). simpl.
      apply insert_insert_eq.
Qed.

Lemma deterministic_witness :
  final_files (run os_with_args (final_files (run os_ok ∅)))
  = final_files (run os_ok ∅).
Proof.
  apply (proj2 (deterministic os_ok os_with_args ∅ (final_files (run os_ok ∅))));
    reflexivity.
Defined.

(** ** Invariants of the records *)

(** C8: in the sheet of a successful run, data row [i], for [i] from 1 to 4,
    has [pk] equal to the integer [i] and [id] equal to the decimal text of
    that integer. *)
Theorem pk_sequential_id_mirrors
    (o : os) (fs : gmap string Workbook_obj) (i : nat) :
  succeeded (run o fs) →
  (1 ≤ i ≤ 4)%nat →
  ∃ sh r, sheet_of_file (run o fs) "dummy_users.xlsx" = Some sh
    ∧ data_row sh i = Some r
    ∧ field r "pk" = Some (PyInt (Z.of_nat i))
    ∧ field r "id" = Some (PyStr (str (Z.of_nat i))).
Proof.
  intros Hok Hi. exists users_sheet.
  rewrite (sheet_of_file_ok o fs Hok).
  destruct i as [|[|[|[|[|i]]]]]; try lia;
    eexists; (split; [reflexivity|]); (split; [reflexivity|]);
    split; vm_compute; reflexivity.
Qed.

Lemma pk_sequential_id_mirrors_witness :
  ∃ sh r, sheet_of_file (run os_ok ∅) "dummy_users.xlsx" = Some sh
    ∧ data_row sh 3 = Some r
    ∧ field r "pk" = Some (PyInt 3)
    ∧ field r "id" = Some (PyStr "3").
Proof.
  apply (pk_sequential_id_mirrors os_ok ∅ 3); [reflexivity | lia].
Defined.

(** C9: in each of the four data rows of the sheet of a successful run,
    [onboarding_complete] is the conjunction of the [step1] and [step2]
    flags that the row's [onboarding_data] text encodes. *)
Theorem onboarding_complete_is_conjunction
    (o : os) (fs : gmap string Workbook_obj) (i : nat) :
  succeeded (run o fs) →
  (1 ≤ i ≤ 4)%nat →
  ∃ sh r s1 s2, sheet_of_file (run o fs) "dummy_users.xlsx" = Some sh
    ∧ data_row sh i = Some r
    ∧ onboarding_steps r = Some (s1, s2)
    ∧ field r "onboarding_complete" = Some (PyBool (s1 && s2)).
Proof.
  intros Hok Hi. exists users_sheet.
  rewrite (sheet_of_file_ok o fs Hok).
  destruct i as [|[|[|[|[|i]]]]]; try lia.
  - exists (rows !!! 0%nat), true, true. by vm_compute.
  - exists (rows !!! 1%nat), true, false. by vm_compute.
  - exists (rows !!! 2%nat), true, true. by vm_compute.
  - exists (rows !!! 3%nat), false, false. by vm_compute.
Qed.

Lemma onboarding_complete_is_conjunction_witness :
  ∃ sh r s1 s2, sheet_of_file (run os_ok ∅) "dummy_users.xlsx" = Some sh
    ∧ data_row sh 2 = Some r
    ∧ onboarding_steps r = Some (s1, s2)
    ∧ field r "onboarding_complete" = Some (PyBool (s1 && s2)).
Proof.
  apply (onboarding_complete_is_conjunction os_ok ∅ 2); [reflexivity | lia].
Defined.

(** C10: in each of the four data rows of the sheet of a successful run,
    [onboarding_data] is the text of a JSON object with exactly the two
    members [step1] and [step2], both booleans, and [email] ends with
    "@example.com". *)
Theorem onboarding_data_and_email_shape
    (o : os) (fs : gmap string Workbook_obj) (i : nat) :
  succeeded (run o fs) →
  (1 ≤ i ≤ 4)%nat →
  ∃ sh r text s1 s2 email,
    sheet_of_file (run o fs) "dummy_users.xlsx" = Some sh
    ∧ data_row sh i = Some r
    ∧ field r "onboarding_data" = Some (PyStr text)
    ∧ Json.loads text
      = Some (JObject [("step1", JBool s1); ("step2", JBool s2)])
    ∧ field r "email" = Some (PyStr email)
    ∧ endswith email "@example.com" = true.
Proof.
  intros Hok Hi. exists users_sheet.
  rewrite (sheet_of_file_ok o fs Hok).
  destruct i as [|[|[|[|[|i]]]]]; try lia;
    do 5 eexists; (split; [reflexivity|]);
    (split; [reflexivity|]); (split; [reflexivity|]);
    (split; [vm_compute; reflexivity|]); (split; [reflexivity|]);
    vm_compute; reflexivity.
Qed.

Lemma onboarding_data_and_email_shape_witness :
  ∃ sh r text s1 s2 email,
    sheet_of_file (run os_ok ∅) "dummy_users.xlsx" = Some sh
    ∧ data_row sh 4 = Some r
    ∧ field r "onboarding_data" = Some (PyStr text)
    ∧ Json.loads text
      = Some (JObject [("step1", JBool s1); ("step2", JBool s2)])
    ∧ field r "email" = Some (PyStr email)
    ∧ endswith email "@example.com" = true.
Proof.
  apply (onboarding_data_and_email_shape os_ok ∅ 4); [reflexivity | lia].
Defined.

(** ** Beyond the sheet's content *)



(** A name of the header has a position, and positions are within the
    header. *)
Lemma position_is_Some name names :
  PyStr name ∈ names → is_Some (position name names).
Proof.
  induction names as [|v names IH]; intros Hin.
  - by apply elem_of_nil in Hin.
  - simpl. case_decide as Hv; [by eexists|].
    apply elem_of_cons in Hin as [Hin|Hin]; [congruence|].
    destruct (IH Hin) as [k ->]. by eexists.
Qed.

Lemma position_lt name names : ∀ k,
  position name names = Some k → (k < length names)%nat.
Proof.
  induction names as [|v names IH]; intros k; simpl; [done|].
  case_decide.
  - intros [= <-]. lia.
  - destruct (position name names) as [k'|]; [|done].
    intros [= <-]. specialize (IH k' eq_refl). lia.
Qed.

(** A row as wide as the header has a cell under every column name. *)
Lemma field_is_Some r name :
  length r = length header → PyStr name ∈ header → is_Some (field r name).
Proof.
  intros Hlen Hin. unfold field.
  destruct (position_is_Some name header Hin) as [k Hk]. rewrite Hk. simpl.
  apply lookup_lt_is_Some. rewrite Hlen. by eapply position_lt.
Qed.

(** X1: a run touches the directory in one place only.  It asks for exactly
    one save, that of [dummy_users.xlsx], whether the write goes through or
    not, and every other path holds after the run what it held before. *)
Theorem only_target_written (o : os) (fs : gmap string Workbook_obj) :
  (∃ b failure rest,
     events (run o fs) = EvSave "dummy_users.xlsx" b failure :: rest
     ∧ ∀ path b' failure', EvSave path b' failure' ∉ rest)
  ∧ ∀ path, path ≠ "dummy_users.xlsx" →
      final_files (run o fs) !! path = fs !! path.
Proof.
  rewrite run_eq.
  destruct (write_fault o "dummy_users.xlsx") as [e|]; simpl; split.
  - do 3 eexists. split; [reflexivity|].
    intros path b' f' Hin. by apply elem_of_nil in Hin.
  - done.
  - do 3 eexists. split; [reflexivity|].
    intros path b' f' Hin. apply list_elem_of_singleton in Hin.
    discriminate Hin.
  - intros path Hne. by apply lookup_insert_ne.
Qed.

Lemma only_target_written_witness :
  final_files (run os_ok {[ "notes.xlsx" := fresh_workbook ]}) !! "notes.xlsx"
  = Some fresh_workbook.
Proof.
  rewrite (proj2 (only_target_written os_ok {[ "notes.xlsx" := fresh_workbook ]})
             "notes.xlsx"); [reflexivity | discriminate].
Defined.

(** X2: the sheet of a successful run is a table.  It has exactly five rows,
    numbered 1 to 5; the eight header names are pairwise different; every
    row has eight cells, so every row has a cell under every header name. *)
Theorem sheet_is_a_table (o : os) (fs : gmap string Workbook_obj) :
  succeeded (run o fs) →
  ∃ sh, sheet_of_file (run o fs) "dummy_users.xlsx" = Some sh
    ∧ max_row sh = 5%nat
    ∧ (∀ i : nat, is_Some (row sh i) ↔ (1 ≤ i ≤ 5)%nat)
    ∧ NoDup header
    ∧ (∀ (i : nat) r, row sh i = Some r → length r = 8%nat)
    ∧ (∀ (i : nat) r name, row sh i = Some r → PyStr name ∈ header →
         is_Some (field r name)).
Proof.
  intros Hok. exists users_sheet.
  split; [by apply sheet_of_file_ok|].
  assert (Hwidth : ∀ (i : nat) r, row users_sheet i = Some r → length r = 8%nat).
  { intros i r.
    destruct i as [|[|[|[|[|[|i]]]]]]; simpl; try discriminate;
      try (by intros [= <-]). }
  split; [reflexivity|]. split; [|split; [|split]].
  - intros i. split.
    + intros [r Hr].
      destruct i as [|i]; [discriminate Hr|].
      apply lookup_lt_Some in Hr. simpl in Hr. lia.
    + intros Hi. destruct i as [|i]; [lia|].
      apply lookup_lt_is_Some. simpl. lia.
  - apply NoDup_ListNoDup. repeat constructor; simpl; intuition discriminate.
  - exact Hwidth.
  - intros i r name Hr Hin. apply field_is_Some; [|done].
    by rewrite (Hwidth i r Hr).
Qed.

Lemma sheet_is_a_table_witness :
  ∃ sh, sheet_of_file (run os_ok ∅) "dummy_users.xlsx" = Some sh
    ∧ max_row sh = 5%nat.
Proof.
  destruct (sheet_is_a_table os_ok ∅) as (sh & Hsh & Hmax & _).
  - reflexivity.
  - exists sh. by split.
Defined.



(** X4: in the sheet of a successful run no two data rows share a [pk], an
    [id] or an [email]: each of the three columns identifies its row. *)
Theorem key_columns_are_unique
    (o : os) (fs : gmap string Workbook_obj) (i j : nat) :
  succeeded (run o fs) →
  (1 ≤ i ≤ 4)%nat →
  (1 ≤ j ≤ 4)%nat →
  ∃ sh ri rj, sheet_of_file (run o fs) "dummy_users.xlsx" = Some sh
    ∧ data_row sh i = Some ri
    ∧ data_row sh j = Some rj
    ∧ ∀ name, name ∈ ["pk"; "id"; "email"] →
        field ri name = field rj name → i = j.
Proof.
  intros Hok Hi Hj. exists users_sheet.
  rewrite (sheet_of_file_ok o fs Hok).
  destruct i as [|[|[|[|[|i]]]]]; try lia;
    destruct j as [|[|[|[|[|j]]]]]; try lia;
    do 2 eexists; (split; [reflexivity|]);
    (split; [reflexivity|]); (split; [reflexivity|]);
    intros name Hin; apply list_elem_of_In in Hin; simpl in Hin;
    destruct Hin as [<-|[<-|[<-|[]]]];
    vm_compute; intros H; first [reflexivity | discriminate H].
Qed.

Lemma key_columns_are_unique_witness :
  ∃ sh ri rj, sheet_of_file (run os_ok ∅) "dummy_users.xlsx" = Some sh
    ∧ data_row sh 1 = Some ri
    ∧ data_row sh 3 = Some rj
    ∧ field ri "email" ≠ field rj "email".
Proof.
  destruct (key_columns_are_unique os_ok ∅ 1 3)
    as (sh & ri & rj & Hsh & Hi & Hj & Huniq); [reflexivity | lia | lia |].
  exists sh, ri, rj. do 3 (split; [assumption|]).
  intros Heq. apply (Huniq "email") in Heq; [discriminate Heq|].
  apply list_elem_of_In. simpl. auto.
Defined.

(** X5: in the sheet of a successful run every [created_at] cell is a
    well-formed timestamp [YYYY-MM-DDTHH:MM:SSZ] naming a date and time that
    exist, and the timestamps grow with the rows: a row further down was
    created strictly later. *)
Theorem created_at_increases
    (o : os) (fs : gmap string Workbook_obj) (i j : nat) :
  succeeded (run o fs) →
  (1 ≤ i)%nat → (i < j)%nat → (j ≤ 4)%nat →
  ∃ sh ti tj, sheet_of_file (run o fs) "dummy_users.xlsx" = Some sh
    ∧ created_at sh i = Some ti
    ∧ created_at sh j = Some tj
    ∧ Iso8601.valid ti = true
    ∧ Iso8601.valid tj = true
    ∧ Iso8601.before ti tj = true.
Proof.
  intros Hok Hi Hij Hj. exists users_sheet.
  rewrite (sheet_of_file_ok o fs Hok).
  destruct i as [|[|[|[|i]]]]; try lia;
    destruct j as [|[|[|[|[|j]]]]]; try lia;
    do 2 eexists; (split; [reflexivity|]);
    (split; [vm_compute; reflexivity|]);
    (split; [vm_compute; reflexivity|]);
    repeat split; vm_compute; reflexivity.
Qed.

Lemma created_at_increases_witness :
  ∃ sh ti tj, sheet_of_file (run os_ok ∅) "dummy_users.xlsx" = Some sh
    ∧ created_at sh 2 = Some ti
    ∧ created_at sh 4 = Some tj
    ∧ Iso8601.valid ti = true
    ∧ Iso8601.valid tj = true
    ∧ Iso8601.before ti tj = true.
Proof.
  apply (created_at_increases os_ok ∅ 2 4); [reflexivity | lia | lia | lia].
Defined.


